(** * Descriptive statistics and confidence intervals: a shallow embedding

    The development follows the two source files:

    - [estadisticas/base.py]: class [EstadisticaBase] and the two
      module-level functions [rango] and [coeficiente_variacion];
    - [inferencial.py]: class [InferenciaEstadistica].

    Python exceptions are values of an error monad.  Numbers are kept
    abstract behind the class [Aritmetica], which has two instances: IEEE
    binary64 (the kernel's primitive floats, bit for bit what CPython and
    NumPy compute with) and exact arithmetic over the reals extended with
    NaN and the two infinities (no rounding).  The functions of the program
    are written once, over the class.  A numeric observation is represented
    by its float value, so a Python [int] and the [float] equal to it are
    the same observation. *)

From Stdlib Require Import Uint63 PrimFloat SpecFloat FloatOps FloatAxioms.
From Stdlib Require Import Reals Lra Lia ZArith Bool List.
From stdpp Require Import base strings gmap sorting pretty.
Import ListNotations.

(** ** Exceptions *)

Inductive tipo_excepcion :=
  | ValueError
  | TypeError
  | ZeroDivisionError
  | AttributeError
  | NotImplementedError.

Record excepcion := Excepcion { tipo : tipo_excepcion; mensaje : string }.

Inductive res (A : Type) :=
  | Ok (a : A)
  | Raise (e : excepcion).
Arguments Ok {A} a.
Arguments Raise {A} e.

Definition bind {A B} (m : res A) (k : A -> res B) : res B :=
  match m with
  | Ok a => k a
  | Raise e => Raise e
  end.

Notation "x <- m ;; k" := (bind m (fun x => k))
  (at level 100, m at next level, right associativity).

Definition raise {A} (t : tipo_excepcion) (msg : string) : res A :=
  Raise (Excepcion t msg).

Definition es_TypeError (e : excepcion) : bool :=
  match tipo e with TypeError => true | _ => false end.

(** ** Arithmetic *)

Class Aritmetica (F : Type) := {
  f_of_Z : Z -> F;            (* the float of an integer literal or count *)
  f_nan : F;                  (* float('nan') *)
  f_inf : F;                  (* float('inf') *)
  f_add : F -> F -> F;
  f_sub : F -> F -> F;
  f_mul : F -> F -> F;
  f_div : F -> F -> F;        (* IEEE division, total (NumPy's) *)
  f_sqrt : F -> F;            (* np.sqrt, and [x ** 0.5] on x >= 0 *)
  f_isnan : F -> bool;
  f_eqb : F -> F -> bool;     (* == *)
  f_ltb : F -> F -> bool      (* <  *)
}.

Definition f_of_nat `{Aritmetica F} (n : nat) : F := f_of_Z (Z.of_nat n).

(** *** IEEE binary64 *)

Definition b64_of_Z (z : Z) : float :=
  match z with
  | Z0 => PrimFloat.zero
  | Zpos _ => PrimFloat.of_uint63 (Uint63.of_Z z)
  | Zneg p => PrimFloat.opp (PrimFloat.of_uint63 (Uint63.of_Z (Zpos p)))
  end.

#[export] Instance binary64 : Aritmetica float := {|
  f_of_Z := b64_of_Z;
  f_nan := PrimFloat.nan;
  f_inf := PrimFloat.infinity;
  f_add := PrimFloat.add;
  f_sub := PrimFloat.sub;
  f_mul := PrimFloat.mul;
  f_div := PrimFloat.div;
  f_sqrt := PrimFloat.sqrt;
  f_isnan := PrimFloat.is_nan;
  f_eqb := PrimFloat.eqb;
  f_ltb := PrimFloat.ltb
|}.

(** *** Exact arithmetic: the reals with NaN and the infinities *)

Inductive xreal :=
  | XNaN
  | XInf (negativo : bool)
  | XFin (r : R).

Definition Rsigno (r : R) : comparison :=
  match total_order_T r 0 with
  | inleft (left _) => Lt
  | inleft (right _) => Eq
  | inright _ => Gt
  end.

Definition x_opp (x : xreal) : xreal :=
  match x with
  | XNaN => XNaN
  | XInf s => XInf (negb s)
  | XFin r => XFin (- r)
  end.

Definition x_add (x y : xreal) : xreal :=
  match x, y with
  | XNaN, _ | _, XNaN => XNaN
  | XInf s, XInf s' => if Bool.eqb s s' then XInf s else XNaN
  | XInf s, XFin _ | XFin _, XInf s => XInf s
  | XFin a, XFin b => XFin (a + b)
  end.

Definition x_sub (x y : xreal) : xreal := x_add x (x_opp y).

Definition x_mul (x y : xreal) : xreal :=
  match x, y with
  | XNaN, _ | _, XNaN => XNaN
  | XInf s, XInf s' => XInf (xorb s s')
  | XInf s, XFin r | XFin r, XInf s =>
      match Rsigno r with
      | Eq => XNaN
      | Gt => XInf s
      | Lt => XInf (negb s)
      end
  | XFin a, XFin b => XFin (a * b)
  end.

Definition x_div (x y : xreal) : xreal :=
  match x, y with
  | XNaN, _ | _, XNaN => XNaN
  | XInf _, XInf _ => XNaN
  | XInf s, XFin r =>
      match Rsigno r with
      | Lt => XInf (negb s)
      | _ => XInf s
      end
  | XFin _, XInf _ => XFin 0
  | XFin a, XFin b =>
      if Req_dec_T b 0 then
        match Rsigno a with
        | Eq => XNaN
        | Gt => XInf false
        | Lt => XInf true
        end
      else XFin (a / b)
  end.

Definition x_sqrt (x : xreal) : xreal :=
  match x with
  | XNaN => XNaN
  | XInf s => if s then XNaN else XInf false
  | XFin r => if Rlt_dec r 0 then XNaN else XFin (sqrt r)
  end.

Definition x_isnan (x : xreal) : bool :=
  match x with XNaN => true | _ => false end.

Definition x_eqb (x y : xreal) : bool :=
  match x, y with
  | XInf s, XInf s' => Bool.eqb s s'
  | XFin a, XFin b => if Req_dec_T a b then true else false
  | _, _ => false
  end.

Definition x_ltb (x y : xreal) : bool :=
  match x, y with
  | XNaN, _ | _, XNaN => false
  | XInf s, XInf s' => s && negb s'
  | XInf s, XFin _ => s
  | XFin _, XInf s => negb s
  | XFin a, XFin b => if Rlt_dec a b then true else false
  end.

#[export] Instance exacta : Aritmetica xreal := {|
  f_of_Z := fun z => XFin (IZR z);
  f_nan := XNaN;
  f_inf := XInf false;
  f_add := x_add;
  f_sub := x_sub;
  f_mul := x_mul;
  f_div := x_div;
  f_sqrt := x_sqrt;
  f_isnan := x_isnan;
  f_eqb := x_eqb;
  f_ltb := x_ltb
|}.

(** ** Library functions the program calls

    [scipy.stats.t.ppf], [scipy.stats.norm.ppf] and the conversion of a
    string to a float made by [Series.astype(float)] are not code of this
    program; they are taken as parameters. *)

Class Externo (F : Type) := {
  t_ppf : F -> Z -> F;                  (* stats.t.ppf(q, df) *)
  norm_ppf : F -> F;                    (* stats.norm.ppf(q) *)
  float_of_str : string -> option F;    (* float(s); None when it raises *)
  mensaje_conversion : string -> string (* text of that ValueError *)
}.

(** ** Observations and the pandas container

    An observation is a number, a string (a category) or [None].  A
    [pd.Series] is the list of its elements. *)

Inductive pyval (F : Type) :=
  | PNum (x : F)
  | PStr (s : string)
  | PNone.
Arguments PNum {F} x.
Arguments PStr {F} s.
Arguments PNone {F}.

(** What the caller hands to a constructor. *)
Inductive entrada (F : Type) :=
  | ENone
  | ELista (l : list (pyval F))
  | ETupla (l : list (pyval F))
  | ESerie (l : list (pyval F))
  | EOtro (descripcion : string).   (* any other object: dict, str, int, ... *)
Arguments ENone {F}.
Arguments ELista {F} l.
Arguments ETupla {F} l.
Arguments ESerie {F} l.
Arguments EOtro {F} descripcion.

Inductive resultado_moda (F : Type) :=
  | Unica (valor : pyval F)            (* modas[0] *)
  | Varias (modas : list (pyval F)).   (* the list modas, possibly [] *)
Arguments Unica {F} valor.
Arguments Varias {F} modas.

Section Programa.

Context {F : Type} {A : Aritmetica F}.

Definition es_numero (v : pyval F) : bool :=
  match v with PNum _ => true | _ => false end.

Definition es_None (v : pyval F) : bool :=
  match v with PNone => true | _ => false end.

(** [pd.isna] on one element: [None] and NaN are missing. *)
Definition es_faltante (v : pyval F) : bool :=
  match v with
  | PNum x => f_isnan x
  | PStr _ => false
  | PNone => true
  end.

(** [pd.Series(l)] on a list or tuple: when every element is a number or
    [None] and a number is present the result has dtype float64 and [None]
    has become NaN; otherwise the elements are kept as objects. *)
Definition pd_Series (l : list (pyval F)) : list (pyval F) :=
  if forallb (fun v => es_numero v || es_None v) l && existsb es_numero l
  then map (fun v => match v with PNone => PNum f_nan | _ => v end) l
  else l.

(** [Series.dropna()] *)
Definition dropna (s : list (pyval F)) : list (pyval F) :=
  List.filter (fun v => negb (es_faltante v)) s.

(** [bool(serie)]: pandas refuses to give a Series a truth value. *)
Definition Series_bool (s : list (pyval F)) : res bool :=
  raise ValueError "The truth value of a Series is ambiguous. Use a.empty, a.bool(), a.item(), a.any() or a.all().".


(** ** Python arithmetic on observations *)

(** [acc + v] inside [sum]: only numbers can be added to a number.  The
    texts of the interpreter's own TypeErrors are abbreviated. *)
Definition py_add (acc : F) (v : pyval F) : res F :=
  match v with
  | PNum x => Ok (f_add acc x)
  | PStr _ => raise TypeError "unsupported operand type(s) for +: 'int' and 'str'"
  | PNone => raise TypeError "unsupported operand type(s) for +: 'int' and 'NoneType'"
  end.

(** [v - m] with [m] a float. *)
Definition py_sub (v : pyval F) (m : F) : res F :=
  match v with
  | PNum x => Ok (f_sub x m)
  | PStr _ => raise TypeError "unsupported operand type(s) for -: 'str' and 'float'"
  | PNone => raise TypeError "unsupported operand type(s) for -: 'NoneType' and 'float'"
  end.

(** [x / y] on Python numbers: a zero divisor raises. *)
Definition py_truediv (x y : F) : res F :=
  if f_eqb y (f_of_Z 0) then raise ZeroDivisionError "division by zero"
  else Ok (f_div x y).

(** The builtin [sum]: starts from 0 and adds from left to right (CPython
    3.12 and later compensate the float additions: [suma_compensada]
    below). *)
Fixpoint py_sum_desde (acc : F) (l : list (pyval F)) : res F :=
  match l with
  | [] => Ok acc
  | v :: l' => acc' <- py_add acc v ;; py_sum_desde acc' l'
  end.

Definition py_sum (l : list (pyval F)) : res F := py_sum_desde (f_of_Z 0) l.

(** [a > b] and [a < b] as [max] and [min] ask them. *)
Definition py_ltb (a b : pyval F) : res bool :=
  match a, b with
  | PNum x, PNum y => Ok (f_ltb x y)
  | PStr s, PStr t => Ok (String.ltb s t)
  | _, _ => raise TypeError "'<' not supported between instances"
  end.

Fixpoint py_max_desde (m : pyval F) (l : list (pyval F)) : res (pyval F) :=
  match l with
  | [] => Ok m
  | v :: l' => b <- py_ltb m v ;; py_max_desde (if b then v else m) l'
  end.

Fixpoint py_min_desde (m : pyval F) (l : list (pyval F)) : res (pyval F) :=
  match l with
  | [] => Ok m
  | v :: l' => b <- py_ltb v m ;; py_min_desde (if b then v else m) l'
  end.

Definition py_max (l : list (pyval F)) : res (pyval F) :=
  match l with
  | [] => raise ValueError "max() arg is an empty sequence"
  | v :: l' => py_max_desde v l'
  end.

Definition py_min (l : list (pyval F)) : res (pyval F) :=
  match l with
  | [] => raise ValueError "min() arg is an empty sequence"
  | v :: l' => py_min_desde v l'
  end.

Definition py_resta (a b : pyval F) : res F :=
  match a, b with
  | PNum x, PNum y => Ok (f_sub x y)
  | _, _ => raise TypeError "unsupported operand type(s) for -"
  end.

(** ** [estadisticas/base.py] *)

Record EstadisticaBase := {
  datos : list (pyval F);
  _n_observaciones : nat
}.

(** [EstadisticaBase.__init__] *)
Definition EstadisticaBase_init (entrada_datos : entrada F) : res EstadisticaBase :=
  match entrada_datos with
  | ENone => raise ValueError "La lista de datos no puede estar vacía."
  | ELista [] | ETupla [] => raise ValueError "La lista de datos no puede estar vacía."
  | ELista l | ETupla l =>
      let serie := pd_Series l in
      Ok {| datos := serie; _n_observaciones := length (dropna serie) |}
  | ESerie s =>
      Ok {| datos := s; _n_observaciones := length (dropna s) |}
  | EOtro _ =>
      raise TypeError "El formato de datos debe ser lista, tupla o pd.Series."
  end.

(** [EstadisticaBase.resumen]: abstract. *)
Definition resumen_base (self : EstadisticaBase) : res unit :=
  raise NotImplementedError "Las clases hijas deben implementar el método resumen()".

Definition obtener_datos (self : EstadisticaBase) : list (pyval F) := datos self.

Definition obtener_n_observaciones (self : EstadisticaBase) : nat :=
  _n_observaciones self.

Definition contar_datos (self : EstadisticaBase) : nat := length (datos self).

Definition suma (self : EstadisticaBase) : res F := py_sum (datos self).

Definition media (self : EstadisticaBase) : res F :=
  let n := contar_datos self in
  if (0 <? n)%nat then s <- suma self ;; py_truediv s (f_of_nat n)
  else Ok f_nan.

(** The dict [frecuencias] of [moda]: an association list in insertion
    order.  Two keys are the same when they compare equal; every NaN that
    the iteration yields is an object of its own and NaN <> NaN, so each
    is a key of its own. *)
Definition clave_eqb (k v : pyval F) : bool :=
  match k, v with
  | PNum x, PNum y => f_eqb x y
  | PStr s, PStr t => String.eqb s t
  | PNone, PNone => true
  | _, _ => false
  end.

Fixpoint dict_get (d : list (pyval F * nat)) (k : pyval F) : option nat :=
  match d with
  | [] => None
  | (k', c) :: d' => if clave_eqb k' k then Some c else dict_get d' k
  end.

Fixpoint dict_set (d : list (pyval F * nat)) (k : pyval F) (c : nat)
  : list (pyval F * nat) :=
  match d with
  | [] => [(k, c)]
  | (k', c') :: d' =>
      if clave_eqb k' k then (k', c) :: d' else (k', c') :: dict_set d' k c
  end.

(** The loop [for valor in self.datos: frecuencias[valor] = frecuencias.get(valor, 0) + 1] *)
Definition contar_valor (frecuencias : list (pyval F * nat)) (valor : pyval F) :=
  dict_set frecuencias valor (default 0%nat (dict_get frecuencias valor) + 1).

Definition frecuencias_de (l : list (pyval F)) : list (pyval F * nat) :=
  fold_left contar_valor l [].

Definition moda (self : EstadisticaBase) : resultado_moda F :=
  let n := contar_datos self in
  if (n =? 0)%nat then Varias []
  else
    let frecuencias := frecuencias_de (datos self) in
    let max_frecuencia := list_max (map snd frecuencias) in
    if (max_frecuencia =? 1)%nat && (1 <? n)%nat then Varias []
    else
      let modas :=
        map fst (List.filter (fun vf => (snd vf =? max_frecuencia)%nat) frecuencias) in
      match modas with
      | [m] => Unica m
      | _ => Varias modas
      end.

(** The generator [(valor - media) ** 2 for valor in self.datos] consumed
    by [sum]; the square [d ** 2] is [d * d]. *)
Fixpoint suma_cuadrados_desde (acc : F) (m : F) (l : list (pyval F)) : res F :=
  match l with
  | [] => Ok acc
  | valor :: l' =>
      d <- py_sub valor m ;;
      suma_cuadrados_desde (f_add acc (f_mul d d)) m l'
  end.

Definition varianza (self : EstadisticaBase) : res F :=
  let n := contar_datos self in
  if (n <? 2)%nat then Ok f_nan
  else
    m <- media self ;;
    suma_cuadrados <- suma_cuadrados_desde (f_of_Z 0) m (datos self) ;;
    py_truediv suma_cuadrados (f_of_nat (n - 1)).

Definition desviacion_estandar (self : EstadisticaBase) : res F :=
  v <- varianza self ;; Ok (f_sqrt v).

(** Module-level function [rango(self)]. *)
Definition rango (self : EstadisticaBase) : res F :=
  b <- Series_bool (datos self) ;;
  if negb b then Ok f_nan
  else
    mx <- py_max (datos self) ;;
    mn <- py_min (datos self) ;;
    py_resta mx mn.

(** Module-level function [coeficiente_variacion(self)]. *)
Definition coeficiente_variacion (self : EstadisticaBase) : res F :=
  m <- media self ;;
  desviacion <- desviacion_estandar self ;;
  if f_isnan m || f_isnan desviacion then Ok f_nan
  else if f_eqb m (f_of_Z 0) then
    if f_eqb desviacion (f_of_Z 0) then Ok (f_of_Z 0)
    else Ok f_inf
  else Ok (f_mul (f_div desviacion m) (f_of_Z 100)).

End Programa.

Arguments EstadisticaBase F : clear implicits.

(** ** [inferencial.py] *)

Inductive valor_resumen (F : Type) :=
  | VEntero (n : nat)
  | VFloat (x : F)
  | VIntervalo (ic : F * F)
  | VTexto (s : string).
Arguments VEntero {F} n.
Arguments VFloat {F} x.
Arguments VIntervalo {F} ic.
Arguments VTexto {F} s.

Section Inferencia.

Context {F : Type} {A : Aritmetica F} {L : Externo F}.

(** [try: cuerpo / except ...: manejador] *)
Definition try_except {T} (cuerpo : res T) (manejador : excepcion -> res T) : res T :=
  match cuerpo with
  | Ok v => Ok v
  | Raise e => manejador e
  end.

(** [float(v)] as NumPy applies it to one element of an object array:
    [None] becomes NaN, a string is parsed. *)
Definition a_float (v : pyval F) : res F :=
  match v with
  | PNum x => Ok x
  | PNone => Ok f_nan
  | PStr s =>
      match float_of_str s with
      | Some x => Ok x
      | None => raise ValueError (mensaje_conversion s)
      end
  end.

(** [Series.astype(float)] *)
Fixpoint astype_float (s : list (pyval F)) : res (list F) :=
  match s with
  | [] => Ok []
  | v :: s' => x <- a_float v ;; xs <- astype_float s' ;; Ok (x :: xs)
  end.

Record InferenciaEstadistica := {
  base : EstadisticaBase F;      (* the inherited part of the object *)
  _n : nat
}.

(** [InferenciaEstadistica.__init__] *)
Definition InferenciaEstadistica_init (entrada_datos : entrada F)
  : res InferenciaEstadistica :=
  b <- EstadisticaBase_init entrada_datos ;;
  let n := obtener_n_observaciones b in
  if (n <? 2)%nat
  then raise ValueError "Se requieren al menos 2 observaciones para la inferencia."
  else Ok {| base := b; _n := n |}.

(** The default [nivel_confianza=0.95]: the division of 95 by 100 is
    correctly rounded, so in binary64 this is the literal 0.95. *)
Definition nivel_095 : F := f_div (f_of_Z 95) (f_of_Z 100).

(** [1 - (1 - nivel_confianza) / 2] *)
Definition probabilidad_acumulada (nivel_confianza : F) : F :=
  f_sub (f_of_Z 1) (f_div (f_sub (f_of_Z 1) nivel_confianza) (f_of_Z 2)).

Definition intervalo_confianza_media (self : InferenciaEstadistica)
    (nivel_confianza : F) : res (F * F) :=
  datos_cuantitativos <- astype_float (obtener_datos (base self)) ;;
  md <- try_except
          (m <- media (base self) ;;
           ds <- desviacion_estandar (base self) ;;
           Ok (m, ds))
          (fun e =>
             if es_TypeError e
             then raise TypeError "Los datos deben ser numéricos para calcular el IC de la media."
             else Raise e) ;;
  let m := fst md in
  let ds := snd md in
  let grados_libertad := (Z.of_nat (_n self) - 1)%Z in
  let t_critico := t_ppf (probabilidad_acumulada nivel_confianza) grados_libertad in
  let error_estandar := f_div ds (f_sqrt (f_of_nat (_n self))) in
  let margen_error := f_mul t_critico error_estandar in
  let limite_inferior := f_sub m margen_error in
  let limite_superior := f_add m margen_error in
  Ok (limite_inferior, limite_superior).


Definition no_aplicable : string := "No aplicable (Datos no numéricos)".

(** [InferenciaEstadistica.resumen]; the key of the interval is
    [f"IC Media ({int(0.95*100)}%)"], and 0.95*100 is 95.0 in binary64. *)
Definition resumen (self : InferenciaEstadistica)
  : res (gmap string (valor_resumen F)) :=
  let res0 : gmap string (valor_resumen F) := {[ "Conteo" := VEntero (_n self) ]} in
  try_except
    (ic_media <- intervalo_confianza_media self nivel_095 ;;
     m <- media (base self) ;;
     Ok (<[ "IC Media (95%)" := VIntervalo ic_media ]>
           (<[ "Media Muestral" := VFloat m ]> res0)))
    (fun e =>
       if es_TypeError e
       then Ok (<[ "IC Media" := VTexto no_aplicable ]> res0)
       else Ok (<[ "IC Media" := VTexto ("Error al calcular: " +:+ mensaje e) ]> res0)).

End Inferencia.

Arguments InferenciaEstadistica F : clear implicits.

(** ** Where the names of the two modules are bound

    Attribute lookup on an instance goes through the instance's own
    attributes and then the class bodies along the method resolution
    order.  The tables list what each body binds, in source order. *)

Inductive clase := Cobject | CEstadisticaBase | CInferenciaEstadistica.

Definition nombre_clase (c : clase) : string :=
  match c with
  | Cobject => "object"
  | CEstadisticaBase => "EstadisticaBase"
  | CInferenciaEstadistica => "InferenciaEstadistica"
  end.

Definition cuerpo_clase (c : clase) : list string :=
  match c with
  | Cobject =>
      ["__class__"; "__delattr__"; "__dir__"; "__doc__"; "__eq__"; "__format__";
       "__ge__"; "__getattribute__"; "__getstate__"; "__gt__"; "__hash__";
       "__init__"; "__init_subclass__"; "__le__"; "__lt__"; "__ne__"; "__new__";
       "__reduce__"; "__reduce_ex__"; "__repr__"; "__setattr__"; "__sizeof__";
       "__str__"; "__subclasshook__"]
  | CEstadisticaBase =>
      ["__init__"; "resumen"; "obtener_datos"; "obtener_n_observaciones";
       "contar_datos"; "suma"; "media"; "mediana"; "moda"; "varianza";
       "desviacion_estandar"]
  | CInferenciaEstadistica =>
      ["__init__"; "intervalo_confianza_media"; "intervalo_confianza_proporcion";
       "resumen"; "__str__"]
  end.

Definition mro (c : clase) : list clase :=
  match c with
  | Cobject => [Cobject]
  | CEstadisticaBase => [CEstadisticaBase; Cobject]
  | CInferenciaEstadistica => [CInferenciaEstadistica; CEstadisticaBase; Cobject]
  end.

(** What [__init__] stores on [self]. *)
Definition atributos_instancia (c : clase) : list string :=
  match c with
  | Cobject => []
  | CEstadisticaBase => ["datos"; "_n_observaciones"]
  | CInferenciaEstadistica => ["datos"; "_n_observaciones"; "_n"]
  end.

Inductive atributo :=
  | DeInstancia
  | Metodo (definido_en : clase).

Definition contiene (nombres : list string) (nombre : string) : bool :=
  existsb (String.eqb nombre) nombres.

Definition getattr (c : clase) (nombre : string) : res atributo :=
  if contiene (atributos_instancia c) nombre then Ok DeInstancia
  else
    match List.find (fun k => contiene (cuerpo_clase k) nombre) (mro c) with
    | Some k => Ok (Metodo k)
    | None =>
        raise AttributeError
          ("'" +:+ nombre_clase c +:+ "' object has no attribute '" +:+ nombre +:+ "'")
    end.




(** ** Sample library functions

    Concrete stand-ins for the library parameters, used to run the program
    on examples: the 97.5% quantiles of Student's t for 1 to 4 degrees of
    freedom and of the standard Normal (which also stands in beyond 4
    degrees), and a string conversion that accepts plain decimal digit
    strings. *)

Fixpoint digitos_desde (acc : Z) (s : string) : option Z :=
  match s with
  | EmptyString => Some acc
  | String c s' =>
      let n := Ascii.nat_of_ascii c in
      if (48 <=? n)%nat && (n <=? 57)%nat
      then digitos_desde (10 * acc + Z.of_nat (n - 48)) s'
      else None
  end.

Definition entero_de_cadena (s : string) : option Z :=
  match s with
  | EmptyString => None
  | _ => digitos_desde 0 s
  end.

Definition mensaje_float (s : string) : string :=
  "could not convert string to float: '" +:+ s +:+ "'".

Definition t_975_b64 (gl : Z) : float :=
  match gl with
  | 1%Z => 0x1.96993aacc4d1ep+3%float
  | 2%Z => 0x1.135ea98e40e62p+2%float
  | 3%Z => 0x1.975a66893c689p+1%float
  | 4%Z => 0x1.63628d9efb5eap+1%float
  | _ => 0x1.f5c0331eeff84p+0%float
  end.

#[export] Instance scipy_b64 : Externo float := {|
  t_ppf := fun _ gl => t_975_b64 gl;
  norm_ppf := fun _ => 0x1.f5c0331eeff84p+0%float;
  float_of_str := fun s => option_map b64_of_Z (entero_de_cadena s);
  mensaje_conversion := mensaje_float
|}.



(** ** The rest of [estadisticas/base.py]: the median *)

Section Mediana.

Context {F : Type} {A : Aritmetica F}.

(** The builtin [sorted], which asks only [<] of the elements: a stable
    insertion sort.  Every stable sort returns the same list when [<] orders
    the elements (numbers without NaN, or strings), and every comparison
    sort stops with the same TypeError when two elements cannot be compared;
    with NaN among the numbers the list CPython returns depends on its merge
    strategy, which is not modelled. *)
Fixpoint insertar (x : pyval F) (ordenados : list (pyval F)) : res (list (pyval F)) :=
  match ordenados with
  | [] => Ok [x]
  | y :: resto =>
      b <- py_ltb x y ;;
      if b then Ok (x :: y :: resto)
      else (r <- insertar x resto ;; Ok (y :: r))
  end.

Fixpoint py_sorted_desde (ordenados l : list (pyval F)) : res (list (pyval F)) :=
  match l with
  | [] => Ok ordenados
  | x :: l' => o <- insertar x ordenados ;; py_sorted_desde o l'
  end.

Definition py_sorted (l : list (pyval F)) : res (list (pyval F)) :=
  py_sorted_desde [] l.

(** [a + b] on two observations: numbers add, strings concatenate. *)
Definition py_mas (a b : pyval F) : res (pyval F) :=
  match a, b with
  | PNum x, PNum y => Ok (PNum (f_add x y))
  | PStr s, PStr t => Ok (PStr (s +:+ t))
  | _, _ => raise TypeError "unsupported operand type(s) for +"
  end.

(** [v / 2] *)
Definition py_entre_2 (v : pyval F) : res (pyval F) :=
  match v with
  | PNum x => Ok (PNum (f_div x (f_of_Z 2)))
  | PStr _ => raise TypeError "unsupported operand type(s) for /: 'str' and 'int'"
  | PNone => raise TypeError "unsupported operand type(s) for /: 'NoneType' and 'int'"
  end.

(** [EstadisticaBase.mediana].  The two indices are within the sorted list,
    which has the length of the sample; the default of [nth] is never
    used. *)
Definition mediana (self : EstadisticaBase F) : res (pyval F) :=
  let n := contar_datos self in
  if (n =? 0)%nat then Ok (PNum f_nan)
  else
    datos_ordenados <- py_sorted (datos self) ;;
    let mitad := (n / 2)%nat in
    if (n mod 2 =? 0)%nat
    then
      s <- py_mas (nth (mitad - 1) datos_ordenados PNone)
                  (nth mitad datos_ordenados PNone) ;;
      py_entre_2 s
    else Ok (nth mitad datos_ordenados PNone).

End Mediana.

(** ** The rest of [inferencial.py]: the textual summary *)

(** [f"{x:.4f}"] on a float is the interpreter's; it is a parameter. *)
Class Formato (F : Type) := {
  formato_4f : F -> string
}.

(** What can go wrong in [__str__]: a key that is not in the mapping, a
    value whose type does not fit the formatting or the concatenation, or an
    exception of [resumen]. *)
Inductive fallo_str :=
  | KeyError (clave : string)
  | TipoInesperado (clave : string)
  | Propagada (e : excepcion).

Definition salto : string := String (Ascii.ascii_of_nat 10) EmptyString.

Fixpoint repetir (n : nat) (s : string) : string :=
  match n with
  | O => EmptyString
  | S n' => s +:+ repetir n' s
  end.

(** [f"{n}"] on a non-negative int. *)
Definition str_de_nat (n : nat) : string := pretty n.

Definition pie_de_uso : string :=
  "Utilice .intervalo_confianza_proporcion(valor) para IC de proporción.".

Section Texto.

Context {F : Type} {A : Aritmetica F} {L : Externo F} {Fmt : Formato F}.

(** [InferenciaEstadistica.__str__] *)
Definition InferenciaEstadistica_str (self : InferenciaEstadistica F)
  : string + fallo_str :=
  match resumen self with
  | Raise e => inr (Propagada e)
  | Ok res =>
      let output :=
        "Inferencia Estadística (n=" +:+ str_de_nat (_n self) +:+ ")" +:+ salto
        +:+ repetir 30 "-" +:+ salto in
      let cuerpo : string + fallo_str :=
        match res !! "Media Muestral" with
        | Some v_media =>
            match res !! "IC Media (95%)" with
            | None => inr (KeyError "IC Media (95%)")
            | Some v_ic =>
                match v_media, v_ic with
                | VFloat m, VIntervalo ic =>
                    inl ("Media Muestral: " +:+ formato_4f m +:+ salto
                         +:+ "IC de la Media (95%): (" +:+ formato_4f (fst ic)
                         +:+ ", " +:+ formato_4f (snd ic) +:+ ")" +:+ salto)
                | VFloat _, _ => inr (TipoInesperado "IC Media (95%)")
                | _, _ => inr (TipoInesperado "Media Muestral")
                end
            end
        | None =>
            match res !! "IC Media" with
            | None => inr (KeyError "IC Media")
            | Some (VTexto s) => inl (s +:+ salto)
            | Some _ => inr (TipoInesperado "IC Media")
            end
        end in
      match cuerpo with
      | inr f => inr f
      | inl c => inl (output +:+ c +:+ repetir 30 "-" +:+ salto +:+ pie_de_uso)
      end
  end.

End Texto.

(** * Definitions used to state the properties *)

(** ** The messages of the constructors *)

Definition mensaje_vacia : string := "La lista de datos no puede estar vacía.".
Definition mensaje_formato : string :=
  "El formato de datos debe ser lista, tupla o pd.Series.".
Definition mensaje_pocas : string :=
  "Se requieren al menos 2 observaciones para la inferencia.".

(** ** Textbook statistics over the reals *)






(** ** Occurrences of the values of a sample *)

Section Ocurrencias.

Context {F : Type} {A : Aritmetica F}.













End Ocurrencias.

(** The mapping with which [resumen] starts. *)
Definition solo_conteo {F : Type} (self : InferenciaEstadistica F)
  : gmap string (valor_resumen F) :=
  {[ "Conteo" := VEntero (_n self) ]}.


(** ** The builtin [sum] of CPython 3.12 and later

    From 3.12 on [sum] adds floats with Neumaier's compensation; [py_sum]
    above is the plain left-to-right addition of the earlier versions.  The
    compensated sum is written out for binary64, to compare the two on the
    samples where the difference could matter. *)

Fixpoint suma_compensada_desde (f_result c : float) (l : list float) : float :=
  match l with
  | [] =>
      if negb (PrimFloat.eqb c 0%float) && PrimFloat.is_finite c
      then (f_result + c)%float
      else f_result
  | x :: l' =>
      let t := (f_result + x)%float in
      let c' :=
        if PrimFloat.leb (PrimFloat.abs x) (PrimFloat.abs f_result)
        then (c + ((f_result - t) + x))%float
        else (c + ((x - t) + f_result))%float in
      suma_compensada_desde t c' l'
  end.

Definition suma_compensada (l : list float) : float :=
  match l with
  | [] => 0%float
  | x :: l' => suma_compensada_desde (0 + x)%float 0%float l'
  end.

(** ** Samples *)

(** A sample of finite numbers, exact arithmetic. *)
Definition muestra_R (xs : list R) : list (pyval xreal) :=
  map (fun x => PNum (XFin x)) xs.

(** A list of binary64 numbers, as handed to a constructor. *)
Definition muestra_b64 (xs : list float) : entrada float := ELista (map PNum xs).

(** The binary64 number that the literal [0.1] denotes. *)
Definition un_decimo : float := 0x1.999999999999ap-4%float.


Definition dos_categorias : InferenciaEstadistica float :=
  {| base := {| datos := [PStr "a"; PStr "b"]; _n_observaciones := 2 |}; _n := 2 |}.




(** ** Definitions for the properties beyond the claims *)

(** The elements that an input hands over; nothing for [None] and for an
    object that is no container. *)
Definition elementos {F : Type} (d : entrada F) : list (pyval F) :=
  match d with
  | ELista l | ETupla l | ESerie l => l
  | ENone | EOtro _ => []
  end.


(** Some element is not a number. *)
Definition hay_no_numero {F : Type} (l : list (pyval F)) : bool :=
  existsb (fun v => negb (es_numero v)) l.

(** The sorted list of reals, by the insertion that [insertar] makes. *)
Fixpoint insertar_R (x : R) (l : list R) : list R :=
  match l with
  | [] => [x]
  | y :: r => if Rlt_dec x y then x :: y :: r else y :: insertar_R x r
  end.

Definition ordenar_desde (o xs : list R) : list R :=
  fold_left (fun o x => insertar_R x o) xs o.

Definition ordenar (xs : list R) : list R := ordenar_desde [] xs.

(** The textbook median: the middle of the sorted values, or the mean of
    the two in the middle. *)
Definition mediana_R (xs : list R) : R :=
  let n := length xs in
  if (n mod 2 =? 0)%nat
  then ((nth (n / 2 - 1) (ordenar xs) 0 + nth (n / 2) (ordenar xs) 0) / 2)%R
  else nth (n / 2) (ordenar xs) 0%R.



(** The engine that [EstadisticaBase.__init__] builds from a non-empty list
    of finite numbers, and the inference engine over it. *)
Definition motor_R (xs : list R) : EstadisticaBase xreal :=
  {| datos := muestra_R xs; _n_observaciones := length xs |}.



Definition con_cadena : EstadisticaBase float :=
  {| datos := [PNum 1%float; PStr "a"; PNum 3%float]; _n_observaciones := 3 |}.





(** The first two lines and the last two lines of the text of [__str__]. *)
Definition encabezado (n : nat) : string :=
  "Inferencia Estadística (n=" +:+ str_de_nat n +:+ ")" +:+ salto
  +:+ repetir 30 "-" +:+ salto.

Definition cierre : string := repetir 30 "-" +:+ salto +:+ pie_de_uso.

(** The keys of a dict of [moda]. *)
Definition claves {F : Type} (d : list (pyval F * nat)) : list (pyval F) := map fst d.

(** The values a result of [moda] holds. *)
Definition valores_de {F : Type} (r : resultado_moda F) : list (pyval F) :=
  match r with
  | Unica v => [v]
  | Varias l => l
  end.

(** * Properties *)

(** ** Construction *)

Section Construccion.

Context {F : Type} {A : Aritmetica F}.

Lemma pd_Series_length (l : list (pyval F)) : length (pd_Series l) = length l.
Proof.
  unfold pd_Series.
  destruct (forallb _ l && existsb _ l); [apply length_map | reflexivity].
Qed.

Lemma pd_Series_no_vacia (v : pyval F) (l : list (pyval F)) : pd_Series (v :: l) <> [].
Proof.
  intros E. apply (f_equal (@length _)) in E.
  rewrite pd_Series_length in E. discriminate.
Qed.

Lemma dropna_length (s : list (pyval F)) : (length (dropna s) <= length s)%nat.
Proof. apply List.filter_length_le. Qed.

(** The count cached by the constructor is the number of non-missing
    elements of the stored sample, whatever the input was. *)
Lemma EstadisticaBase_init_n (d : entrada F) (e : EstadisticaBase F) :
  EstadisticaBase_init d = Ok e ->
  _n_observaciones e = length (dropna (datos e)).
Proof.
  destruct d as [ | [ | v l] | [ | v l] | s | x ]; simpl; intros E;
    try discriminate; injection E as <-; reflexivity.
Qed.

Lemma InferenciaEstadistica_init_Ok (d : entrada F) (e : InferenciaEstadistica F) :
  InferenciaEstadistica_init d = Ok e ->
  EstadisticaBase_init d = Ok (base e)
  /\ _n e = _n_observaciones (base e)
  /\ (2 <= _n e)%nat.
Proof.
  unfold InferenciaEstadistica_init, bind, obtener_n_observaciones.
  destruct (EstadisticaBase_init d) as [b | x]; [ | discriminate].
  destruct (_n_observaciones b <? 2)%nat eqn:E; [discriminate | ].
  intros [= <-]. simpl. apply Nat.ltb_ge in E. auto.
Qed.

End Construccion.

(** C3 (as the code has it).  The emptiness test of the constructor is
    guarded by [isinstance(datos, (list, tuple))]: an empty list or tuple,
    and [None], fail with ValueError; a non-empty list or tuple is
    normalised and stored, so the sample is non-empty; a Series is stored as
    it is, the empty one included; any other object fails with
    TypeError. *)
Theorem C3_construccion_base (F : Type) (A : Aritmetica F) :
  EstadisticaBase_init (@ENone F) = raise ValueError mensaje_vacia
  /\ EstadisticaBase_init (@ELista F []) = raise ValueError mensaje_vacia
  /\ EstadisticaBase_init (@ETupla F []) = raise ValueError mensaje_vacia
  /\ (forall v l,
        EstadisticaBase_init (ELista (v :: l))
        = Ok {| datos := pd_Series (v :: l);
                _n_observaciones := length (dropna (pd_Series (v :: l))) |}
        /\ EstadisticaBase_init (ETupla (v :: l))
           = EstadisticaBase_init (ELista (v :: l))
        /\ pd_Series (v :: l) <> []
        /\ length (pd_Series (v :: l)) = S (length l))
  /\ (forall s,
        EstadisticaBase_init (ESerie s)
        = Ok {| datos := s; _n_observaciones := length (dropna s) |})
  /\ (forall x,
        EstadisticaBase_init (@EOtro F x) = raise TypeError mensaje_formato).
Proof.
  repeat split; try reflexivity.
  - apply pd_Series_no_vacia.
  - apply (pd_Series_length (v :: l)).
Qed.

(** C3, the claim as stated fails: the empty Series is accepted and the
    engine built from it holds an empty sample. *)
Lemma C3_serie_vacia_aceptada :
  exists e : EstadisticaBase float,
    EstadisticaBase_init (ESerie []) = Ok e
    /\ datos e = []
    /\ contar_datos e = 0%nat.
Proof. eexists. repeat split. Qed.

(** C3, second divergence: [None] is no recognised container and yet
    fails with ValueError, not TypeError. *)
Lemma construccion_None_ValueError :
  exists msg, EstadisticaBase_init (@ENone float) = Raise (Excepcion ValueError msg).
Proof. eexists. reflexivity. Qed.

(** C10.  [InferenciaEstadistica.__init__] runs the base constructor first:
    its failure is the failure of the whole construction; when it succeeds
    with fewer than 2 non-missing observations the construction fails with
    ValueError, and otherwise the engine caches that count.  A single
    observation, in a list, a tuple or a Series, always fails with
    ValueError. *)
Theorem C10_construccion_inferencia (F : Type) (A : Aritmetica F) (d : entrada F) :
  (forall x, EstadisticaBase_init d = Raise x ->
             InferenciaEstadistica_init d = Raise x)
  /\ (forall b, EstadisticaBase_init d = Ok b ->
        (_n_observaciones b < 2)%nat ->
        InferenciaEstadistica_init d = raise ValueError mensaje_pocas)
  /\ (forall b, EstadisticaBase_init d = Ok b ->
        (2 <= _n_observaciones b)%nat ->
        InferenciaEstadistica_init d
        = Ok {| base := b; _n := _n_observaciones b |})
  /\ (forall v : pyval F,
        InferenciaEstadistica_init (ELista [v]) = raise ValueError mensaje_pocas
        /\ InferenciaEstadistica_init (ETupla [v]) = raise ValueError mensaje_pocas
        /\ InferenciaEstadistica_init (ESerie [v]) = raise ValueError mensaje_pocas).
Proof.
  unfold InferenciaEstadistica_init, bind, obtener_n_observaciones.
  repeat split.
  - intros x ->. reflexivity.
  - intros b -> Hn. apply Nat.ltb_lt in Hn. rewrite Hn. reflexivity.
  - intros b -> Hn. apply Nat.ltb_ge in Hn. rewrite Hn. reflexivity.
  - destruct v as [x | s | ]; simpl; unfold pd_Series, dropna; simpl;
      try destruct (f_isnan x); reflexivity.
  - destruct v as [x | s | ]; simpl; unfold pd_Series, dropna; simpl;
      try destruct (f_isnan x); reflexivity.
  - destruct v as [x | s | ]; simpl; unfold dropna; simpl;
      try destruct (f_isnan x); reflexivity.
Qed.

(** C10 at work: the list [5, None] has one non-missing observation. *)
Lemma C10_testigo :
  InferenciaEstadistica_init (ELista [PNum 5%float; PNone])
  = raise ValueError mensaje_pocas.
Proof.
  destruct (C10_construccion_inferencia float binary64
              (ELista [PNum 5%float; PNone])) as (_ & H & _).
  eapply H; [reflexivity | vm_compute; lia].
Defined.

(** ** The summary of the inference engine *)

Section Resumen.

Context {F : Type} {A : Aritmetica F} {L : Externo F}.

(** The three outcomes of [resumen], by the outcome of the interval. *)
Lemma resumen_Ok (self : InferenciaEstadistica F) ic m :
  intervalo_confianza_media self nivel_095 = Ok ic ->
  media (base self) = Ok m ->
  resumen self
  = Ok (<[ "IC Media (95%)" := VIntervalo ic ]>
          (<[ "Media Muestral" := VFloat m ]> (solo_conteo self))).
Proof. unfold resumen. intros -> ->. reflexivity. Qed.

Lemma resumen_TypeError (self : InferenciaEstadistica F) msg :
  intervalo_confianza_media self nivel_095 = Raise (Excepcion TypeError msg) ->
  resumen self = Ok (<[ "IC Media" := VTexto no_aplicable ]> (solo_conteo self)).
Proof. unfold resumen. intros ->. reflexivity. Qed.

Lemma resumen_otro_error (self : InferenciaEstadistica F) e :
  intervalo_confianza_media self nivel_095 = Raise e ->
  es_TypeError e = false ->
  resumen self
  = Ok (<[ "IC Media" := VTexto ("Error al calcular: " +:+ mensaje e) ]>
          (solo_conteo self)).
Proof. unfold resumen. intros -> E. simpl. rewrite E. reflexivity. Qed.

(** [resumen] returns, and the count is in what it returns. *)
Lemma resumen_total (self : InferenciaEstadistica F) :
  exists r, resumen self = Ok r /\ r !! "Conteo" = Some (VEntero (_n self)).
Proof.
  unfold resumen, try_except, bind.
  destruct (intervalo_confianza_media self nivel_095) as [ic | e].
  - destruct (media (base self)) as [m | e].
    + eexists; split; [reflexivity | ]. by simplify_map_eq.
    + destruct (es_TypeError e); eexists; (split; [reflexivity | ]); by simplify_map_eq.
  - destruct (es_TypeError e); eexists; (split; [reflexivity | ]); by simplify_map_eq.
Qed.

(** A string that [float] rejects makes [astype(float)] raise ValueError
    before anything else is computed. *)
Lemma intervalo_confianza_media_no_convertible
    (self : InferenciaEstadistica F) (s : string) (l : list (pyval F)) nivel :
  datos (base self) = PStr s :: l ->
  float_of_str s = None ->
  intervalo_confianza_media self nivel
  = raise ValueError (mensaje_conversion s).
Proof.
  intros Hd Hs. unfold intervalo_confianza_media, obtener_datos.
  rewrite Hd. simpl. rewrite Hs. reflexivity.
Qed.

End Resumen.

(** C4.  For every engine that [InferenciaEstadistica.__init__] built,
    whatever the elements of its data, [resumen] returns a mapping (no
    exception escapes) whose entry ["Conteo"] is the count of non-missing
    observations, which is at least 2. *)
Theorem C4_resumen_no_lanza (F : Type) (A : Aritmetica F) (L : Externo F)
    (d : entrada F) (self : InferenciaEstadistica F) :
  InferenciaEstadistica_init d = Ok self ->
  exists r,
    resumen self = Ok r
    /\ r !! "Conteo" = Some (VEntero (_n self))
    /\ _n self = length (dropna (datos (base self)))
    /\ (2 <= _n self)%nat.
Proof.
  intros Hinit.
  destruct (InferenciaEstadistica_init_Ok d self Hinit) as (Hb & Hn & H2).
  destruct (resumen_total self) as (r & Hr & Hc).
  exists r. repeat split; try assumption.
  rewrite Hn. eapply EstadisticaBase_init_n, Hb.
Qed.

Lemma C4_testigo :
  exists r,
    resumen dos_categorias = Ok r
    /\ r !! "Conteo" = Some (VEntero (_n dos_categorias))
    /\ _n dos_categorias = length (dropna (datos (base dos_categorias)))
    /\ (2 <= _n dos_categorias)%nat.
Proof.
  apply (C4_resumen_no_lanza float binary64 scipy_b64 (ELista [PStr "a"; PStr "b"])).
  reflexivity.
Defined.

(** C1, on the code.  For a list of categories whose first element is a
    string that [float] rejects, the construction succeeds as soon as two
    observations are present, and [resumen] records under ["IC Media"] the
    text ["Error al calcular: "] followed by the message of the ValueError
    of [astype(float)]: the branch of [except Exception], not the marker of
    [except TypeError]. *)
Theorem C1_resumen_cadena_no_convertible (F : Type) (A : Aritmetica F) (L : Externo F)
    (s : string) (l : list (pyval F)) (self : InferenciaEstadistica F) :
  float_of_str s = None ->
  InferenciaEstadistica_init (ELista (PStr s :: l)) = Ok self ->
  resumen self
  = Ok (<[ "IC Media" := VTexto ("Error al calcular: " +:+ mensaje_conversion s) ]>
          {[ "Conteo" := VEntero (_n self) ]})
  /\ resumen self
     <> Ok (<[ "IC Media" := VTexto no_aplicable ]> {[ "Conteo" := VEntero (_n self) ]}).
Proof.
  intros Hs Hinit.
  destruct (InferenciaEstadistica_init_Ok _ _ Hinit) as (Hb & _ & _).
  assert (Hd : datos (base self) = PStr s :: l).
  { simpl in Hb. injection Hb as <-. reflexivity. }
  assert (Hr := resumen_otro_error self _
                  (intervalo_confianza_media_no_convertible self s l nivel_095 Hd Hs)
                  eq_refl).
  split; [exact Hr | ].
  rewrite Hr. intros E.
  apply (f_equal (fun r : res (gmap string (valor_resumen F)) =>
                    match r with Ok m => m !! "IC Media" | Raise _ => None end)) in E.
  rewrite !lookup_insert_eq in E. discriminate.
Qed.

Lemma C1_testigo :
  resumen dos_categorias
  = Ok (<[ "IC Media" :=
             VTexto "Error al calcular: could not convert string to float: 'a'" ]>
          {[ "Conteo" := VEntero 2 ]})
  /\ resumen dos_categorias
     <> Ok (<[ "IC Media" := VTexto no_aplicable ]> {[ "Conteo" := VEntero 2 ]}).
Proof.
  apply (C1_resumen_cadena_no_convertible float binary64 scipy_b64 "a" [PStr "b"]);
    reflexivity.
Defined.

(** ** Where [rango] and [coeficiente_variacion] live *)

Lemma rango_ValueError (F : Type) (A : Aritmetica F) (self : EstadisticaBase F) :
  exists msg, rango self = Raise (Excepcion ValueError msg).
Proof. eexists. reflexivity. Qed.


(** ** Variance *)

Section Numeros.

Context {F : Type} {A : Aritmetica F}.

Lemma pd_Series_numeros (l : list (pyval F)) :
  forallb es_numero l = true -> pd_Series l = l.
Proof.
  intros H. unfold pd_Series.
  destruct (forallb _ l && existsb _ l); [ | reflexivity].
  induction l as [ | v l IH]; [reflexivity | ].
  simpl in H. apply andb_true_iff in H as [Hv Hl].
  simpl. rewrite (IH Hl). destruct v; [reflexivity | discriminate | discriminate].
Qed.

Lemma varianza_pocos (self : EstadisticaBase F) :
  (contar_datos self < 2)%nat -> varianza self = Ok f_nan.
Proof.
  intros H. unfold varianza. apply Nat.ltb_lt in H. rewrite H. reflexivity.
Qed.

End Numeros.


Lemma muestra_R_length (xs : list R) : length (muestra_R xs) = length xs.
Proof. apply length_map. Qed.











(** ** Coefficient of variation *)

(** In binary64 a value greater than 0 is not equal to 0. *)
Lemma b64_positivo_no_cero (s : float) :
  PrimFloat.ltb 0%float s = true -> PrimFloat.eqb s 0%float = false.
Proof.
  rewrite FloatAxioms.ltb_spec, FloatAxioms.eqb_spec.
  change (Prim2SF 0%float) with (S754_zero false).
  unfold SFltb, SFeqb.
  destruct (Prim2SF s) as [sg | sg | | sg m e]; simpl; try discriminate;
    destruct sg; simpl; congruence.
Qed.

Lemma x_positivo_no_cero (s : xreal) :
  x_ltb (XFin 0) s = true -> x_eqb s (XFin 0) = false.
Proof.
  destruct s as [ | sg | r]; simpl; try reflexivity.
  destruct (Rlt_dec 0 r); [ | discriminate].
  destruct (Req_dec_T r 0); [lra | reflexivity].
Qed.

Section CoeficienteVariacion.

Context {F : Type} {A : Aritmetica F}.

Lemma coeficiente_variacion_casos (self : EstadisticaBase F) (m s : F) :
  media self = Ok m ->
  desviacion_estandar self = Ok s ->
  coeficiente_variacion self
  = Ok (if f_isnan m || f_isnan s then f_nan
        else if f_eqb m (f_of_Z 0)
             then if f_eqb s (f_of_Z 0) then f_of_Z 0 else f_inf
             else f_mul (f_div s m) (f_of_Z 100)).
Proof.
  intros Hm Hs. unfold coeficiente_variacion. rewrite Hm, Hs. unfold bind.
  destruct (f_isnan m || f_isnan s); [reflexivity | ].
  destruct (f_eqb m (f_of_Z 0)); [ | reflexivity].
  destruct (f_eqb s (f_of_Z 0)); reflexivity.
Qed.

End CoeficienteVariacion.

(** C8.  With mean [m] and standard deviation [s] of the engine:
    [coeficiente_variacion] is NaN when [m] or [s] is NaN; otherwise, when
    [m == 0], it is 0.0 if [s == 0] and +infinity if not, so for every
    [s > 0] in binary64; otherwise it is [(s / m) * 100].  On [0, 0, 0] it
    is 0.0 and on [0, 5, -5] it is +infinity. *)
Theorem C8_coeficiente_variacion (F : Type) (A : Aritmetica F)
    (self : EstadisticaBase F) (m s : F) :
  media self = Ok m ->
  desviacion_estandar self = Ok s ->
  (f_isnan m = true \/ f_isnan s = true -> coeficiente_variacion self = Ok f_nan)
  /\ (f_isnan m = false -> f_isnan s = false ->
      f_eqb m (f_of_Z 0) = true -> f_eqb s (f_of_Z 0) = true ->
      coeficiente_variacion self = Ok (f_of_Z 0))
  /\ (f_isnan m = false -> f_isnan s = false ->
      f_eqb m (f_of_Z 0) = true -> f_eqb s (f_of_Z 0) = false ->
      coeficiente_variacion self = Ok f_inf)
  /\ (f_isnan m = false -> f_isnan s = false ->
      f_eqb m (f_of_Z 0) = false ->
      coeficiente_variacion self = Ok (f_mul (f_div s m) (f_of_Z 100)))
  /\ (forall s' : float, PrimFloat.ltb 0%float s' = true ->
                         PrimFloat.eqb s' 0%float = false)
  /\ (forall s' : xreal, x_ltb (XFin 0) s' = true -> x_eqb s' (XFin 0) = false)
  /\ (exists e, EstadisticaBase_init (muestra_b64 [0; 0; 0]%float) = Ok e
                /\ coeficiente_variacion e = Ok 0%float)
  /\ (exists e, EstadisticaBase_init (muestra_b64 [0; 5; -5]%float) = Ok e
                /\ media e = Ok 0%float
                /\ desviacion_estandar e = Ok 5%float
                /\ coeficiente_variacion e = Ok infinity).
Proof.
  intros Hm Hs. rewrite (coeficiente_variacion_casos self m s Hm Hs).
  repeat split.
  - intros [-> | ->]; [reflexivity | ]. rewrite orb_true_r. reflexivity.
  - intros -> -> -> ->. reflexivity.
  - intros -> -> -> ->. reflexivity.
  - intros -> -> ->. reflexivity.
  - apply b64_positivo_no_cero.
  - apply x_positivo_no_cero.
  - eexists. split; vm_compute; reflexivity.
  - eexists. repeat split; vm_compute; reflexivity.
Qed.

Lemma C8_testigo :
  coeficiente_variacion
    {| datos := [PNum 1; PNum 2; PNum 3]%float; _n_observaciones := 3 |}
  = Ok (f_mul (f_div 1 2) 100)%float.
Proof.
  destruct (C8_coeficiente_variacion float binary64
              {| datos := [PNum 1; PNum 2; PNum 3]%float; _n_observaciones := 3 |}
              2%float 1%float) as (_ & _ & _ & H & _);
    [vm_compute; reflexivity | vm_compute; reflexivity | ].
  apply H; vm_compute; reflexivity.
Defined.

(** ** The mode *)

Section Moda.

Context {F : Type} {A : Aritmetica F}.

(** *** Facts that need nothing of the equality *)


















(** *** Facts that need equality of numbers to be symmetric and transitive *)

Hypothesis f_eqb_sym : forall x y : F, f_eqb x y = true -> f_eqb y x = true.
Hypothesis f_eqb_trans :
  forall x y z : F, f_eqb x y = true -> f_eqb y z = true -> f_eqb x z = true.






















End Moda.

(** *** Equality of binary64 numbers is symmetric and transitive *)






Lemma x_eqb_eq (x y : xreal) : x_eqb x y = true -> x = y.
Proof.
  destruct x as [ | s | a], y as [ | s' | b]; simpl; try discriminate.
  - intros H. apply eqb_prop in H. congruence.
  - destruct (Req_dec_T a b); [congruence | discriminate].
Qed.

Lemma x_eqb_sym (x y : xreal) : x_eqb x y = true -> x_eqb y x = true.
Proof. intros H. pose proof (x_eqb_eq _ _ H) as E. subst y. exact H. Qed.

Lemma x_eqb_trans (x y z : xreal) :
  x_eqb x y = true -> x_eqb y z = true -> x_eqb x z = true.
Proof. intros H1 H2. rewrite (x_eqb_eq _ _ H1). exact H2. Qed.



(** ** Confidence intervals in exact arithmetic *)


Lemma x_div_fin (a b : R) : b <> 0%R -> x_div (XFin a) (XFin b) = XFin (a / b).
Proof. intros Hb. simpl. destruct (Req_dec_T b 0); [contradiction | reflexivity]. Qed.





Section IntervalosExactos.

Context {L : Externo xreal}.





End IntervalosExactos.




(** ** The interval of a proportion *)





Section ProporcionExacta.

Context {L : Externo xreal}.



End ProporcionExacta.





(** ** Further facts behind the verdicts *)

(** On [0.1, 0.1, 0.1] the compensated [sum] of CPython 3.12 gives what the
    plain one gives, for the total and for the sum of the squared
    deviations: the interval of that sample is the same under both. *)
Lemma suma_compensada_un_decimo :
  py_sum (map PNum [un_decimo; un_decimo; un_decimo])
  = Ok (suma_compensada [un_decimo; un_decimo; un_decimo])
  /\ forall m,
       media {| datos := map PNum [un_decimo; un_decimo; un_decimo];
                _n_observaciones := 3 |} = Ok m ->
       suma_cuadrados_desde 0%float m (map PNum [un_decimo; un_decimo; un_decimo])
       = Ok (suma_compensada
               (map (fun v => ((v - m) * (v - m))%float)
                    [un_decimo; un_decimo; un_decimo])).
Proof.
  split; [vm_compute; reflexivity | ].
  intros m Hm. vm_compute in Hm. injection Hm as <-. vm_compute. reflexivity.
Qed.

(** Copies of an infinite value have no interval: the deviations are
    inf - inf. *)
Lemma intervalo_media_infinito :
  exists e,
    InferenciaEstadistica_init (muestra_b64 [infinity; infinity]) = Ok e
    /\ @intervalo_confianza_media float binary64 scipy_b64 e nivel_095 = Ok (nan, nan).
Proof. eexists. split; vm_compute; reflexivity. Qed.

(** The marker of [resumen] is reached when the conversion succeeds and the
    sum then fails: strings that [float] accepts. *)
Lemma resumen_cadenas_numericas (F : Type) (A : Aritmetica F) (L : Externo F)
    (s : string) (l : list (pyval F)) (self : InferenciaEstadistica F) (xs : list F) :
  datos (base self) = PStr s :: l ->
  astype_float (PStr s :: l) = Ok xs ->
  resumen self = Ok (<[ "IC Media" := VTexto no_aplicable ]> (solo_conteo self)).
Proof.
  intros Hd Hx. eapply resumen_TypeError.
  unfold intervalo_confianza_media, obtener_datos. rewrite Hd, Hx.
  unfold bind at 1. unfold media, contar_datos, suma, py_sum. rewrite Hd.
  reflexivity.
Qed.

Lemma resumen_uno_dos :
  exists e,
    InferenciaEstadistica_init (@ELista float [PStr "1"; PStr "2"]) = Ok e
    /\ @resumen float binary64 scipy_b64 e
       = Ok (<[ "IC Media" := VTexto no_aplicable ]> {[ "Conteo" := VEntero 2 ]}).
Proof.
  eexists. split; [reflexivity | ].
  eapply (resumen_cadenas_numericas float binary64 scipy_b64 "1" [PStr "2"]);
    reflexivity.
Qed.

(** The key under which [resumen] stores the interval: [int(0.95*100)] is
    95 in binary64. *)
Lemma clave_del_intervalo :
  PrimFloat.mul (@nivel_095 float binary64) 100%float = 95%float.
Proof. vm_compute. reflexivity. Qed.

(** * Properties beyond the claims *)

(** ** Construction and counts *)

Section Conteos.

Context {F : Type} {A : Aritmetica F}.

Lemma dropna_pd_Series (l : list (pyval F)) :
  f_isnan f_nan = true ->
  length (dropna (pd_Series l)) = length (dropna l).
Proof.
  intros Hnan. unfold pd_Series.
  destruct (forallb _ l && existsb _ l); [ | reflexivity].
  unfold dropna. induction l as [ | v l IH]; [reflexivity | ].
  simpl. destruct v as [x | s | ]; simpl.
  - destruct (f_isnan x); simpl; rewrite IH; reflexivity.
  - rewrite IH. reflexivity.
  - rewrite Hnan. simpl. exact IH.
Qed.

Lemma dropna_faltantes (l : list (pyval F)) :
  (length (dropna l) + length (List.filter es_faltante l) = length l)%nat.
Proof.
  unfold dropna. induction l as [ | v l IH]; [reflexivity | ].
  simpl. destruct (es_faltante v); simpl; lia.
Qed.

End Conteos.

(** X1.  Whatever container the constructor accepts, the engine counts
    every element handed over ([contar_datos]) and caches the number of
    those that are neither [None] nor NaN ([obtener_n_observaciones]): the
    two differ by the number of missing elements, and normalising the list
    changes neither.  (NaN is recognised as NaN by the arithmetic.) *)
Theorem X1_conteos_de_la_construccion (F : Type) (A : Aritmetica F)
    (d : entrada F) (e : EstadisticaBase F) :
  f_isnan f_nan = true ->
  EstadisticaBase_init d = Ok e ->
  contar_datos e = length (elementos d)
  /\ obtener_n_observaciones e = length (dropna (elementos d))
  /\ (obtener_n_observaciones e + length (List.filter es_faltante (elementos d))
      = contar_datos e)%nat
  /\ (obtener_n_observaciones e <= contar_datos e)%nat
  /\ (forallb es_numero (elementos d) = true -> obtener_datos e = elementos d).
Proof.
  intros Hnan Hinit.
  assert (Hc : contar_datos e = length (elementos d)
               /\ obtener_n_observaciones e = length (dropna (elementos d))
               /\ (forallb es_numero (elementos d) = true ->
                   obtener_datos e = elementos d)).
  { unfold contar_datos, obtener_n_observaciones, obtener_datos.
    destruct d as [ | [ | v l] | [ | v l] | s | x ]; simpl in Hinit;
      try discriminate; injection Hinit as <-; simpl datos; simpl _n_observaciones;
      simpl elementos;
      rewrite ?pd_Series_length, ?(dropna_pd_Series _ Hnan);
      (repeat split; try reflexivity); apply pd_Series_numeros. }
  destruct Hc as (Hc & Hn & Hd). rewrite Hc, Hn.
  pose proof (dropna_faltantes (elementos d)).
  repeat split; try assumption; lia.
Qed.

Lemma X1_testigo :
  contar_datos {| datos := [PNum 1; PNum nan; PNum 3]%float; _n_observaciones := 2 |}
  = 3%nat
  /\ obtener_n_observaciones
       {| datos := [PNum 1; PNum nan; PNum 3]%float; _n_observaciones := 2 |}
     = length (dropna [PNum 1%float; PNone; PNum 3%float]).
Proof.
  destruct (X1_conteos_de_la_construccion float binary64
              (ELista [PNum 1%float; PNone; PNum 3%float])
              {| datos := [PNum 1; PNum nan; PNum 3]%float; _n_observaciones := 2 |}
              eq_refl eq_refl) as (H1 & H2 & _).
  split; [exact H1 | exact H2].
Defined.

(** ** Samples that are not numeric *)

Section NoNumericos.

Context {F : Type} {A : Aritmetica F}.

Lemma py_sum_desde_TypeError (l : list (pyval F)) (acc : F) :
  hay_no_numero l = true ->
  exists msg, py_sum_desde acc l = Raise (Excepcion TypeError msg).
Proof.
  revert acc. induction l as [ | v l IH]; intros acc H; [discriminate | ].
  destruct v as [x | s | ]; simpl.
  - apply IH. exact H.
  - eexists. reflexivity.
  - eexists. reflexivity.
Qed.



Lemma media_TypeError (self : EstadisticaBase F) :
  hay_no_numero (datos self) = true ->
  exists msg, media self = Raise (Excepcion TypeError msg).
Proof.
  intros H. unfold media, contar_datos, suma, py_sum.
  destruct (datos self) as [ | v l] eqn:E; [discriminate | ].
  change (0 <? length (v :: l))%nat with true. cbv iota.
  destruct (py_sum_desde_TypeError (v :: l) (f_of_Z 0) H) as [msg ->].
  eexists. reflexivity.
Qed.

End NoNumericos.

(** X2.  On a sample that holds a string or a [None], [suma], [media] and
    [coeficiente_variacion] raise TypeError, and so do [varianza] and
    [desviacion_estandar] as soon as the sample has two elements; with fewer
    than two elements [varianza] returns NaN without looking at the data. *)
Theorem X2_no_numericos (F : Type) (A : Aritmetica F) (self : EstadisticaBase F) :
  hay_no_numero (datos self) = true ->
  (exists msg, suma self = Raise (Excepcion TypeError msg))
  /\ (exists msg, media self = Raise (Excepcion TypeError msg))
  /\ (exists msg, coeficiente_variacion self = Raise (Excepcion TypeError msg))
  /\ ((2 <= contar_datos self)%nat ->
      (exists msg, varianza self = Raise (Excepcion TypeError msg))
      /\ (exists msg, desviacion_estandar self = Raise (Excepcion TypeError msg)))
  /\ ((contar_datos self < 2)%nat ->
      varianza self = Ok f_nan /\ desviacion_estandar self = Ok (f_sqrt f_nan)).
Proof.
  intros H.
  destruct (media_TypeError self H) as [msg Hm].
  split; [apply py_sum_desde_TypeError, H | ].
  split; [eauto | ].
  split; [unfold coeficiente_variacion; rewrite Hm; eexists; reflexivity | ].
  split.
  - intros Hn.
    assert (Hv : varianza self = Raise (Excepcion TypeError msg)).
    { unfold varianza. destruct (contar_datos self <? 2)%nat eqn:E;
        [apply Nat.ltb_lt in E; lia | ].
      rewrite Hm. reflexivity. }
    split; [eauto | ]. unfold desviacion_estandar. rewrite Hv. eexists. reflexivity.
  - intros Hn. pose proof (varianza_pocos self Hn) as Hv.
    split; [exact Hv | ]. unfold desviacion_estandar. rewrite Hv. reflexivity.
Qed.

Lemma X2_testigo :
  exists msg, media con_cadena = Raise (Excepcion TypeError msg).
Proof.
  destruct (X2_no_numericos float binary64 con_cadena eq_refl) as (_ & H & _).
  exact H.
Defined.

(** X3.  [rango] never returns: its first statement asks the Series for a
    truth value, which pandas refuses, so for every engine, the empty one
    included, the call ends in ValueError before any maximum or minimum is
    taken. *)
Theorem X3_rango_siempre_falla (F : Type) (A : Aritmetica F) (self : EstadisticaBase F) :
  rango self
  = raise ValueError
      "The truth value of a Series is ambiguous. Use a.empty, a.bool(), a.item(), a.any() or a.all()."
  /\ (forall r, rango self <> Ok r).
Proof.
  split; [reflexivity | ]. intros r. discriminate.
Qed.

(** ** Mean, variance and coefficient of variation of finite numbers *)






















(** ** The median *)

Section MedianaErrores.

Context {F : Type} {A : Aritmetica F}.

(** [p] is one of the two classes of values that [<] compares. *)
Variable p : pyval F -> bool.
Hypothesis p_comparables :
  forall a b, p a = true -> p b = true -> exists r, py_ltb a b = Ok r.
Hypothesis p_ajenos :
  forall a b, p a = false -> p b = true ->
              exists msg, py_ltb a b = Raise (Excepcion TypeError msg).





End MedianaErrores.

Section MedianaCasos.

Context {F : Type} {A : Aritmetica F}.








End MedianaCasos.



(** *** The median of finite numbers, in exact arithmetic *)

Lemma insertar_exacta (x : R) (o : list R) :
  insertar (PNum (XFin x)) (muestra_R o) = Ok (muestra_R (insertar_R x o)).
Proof.
  induction o as [ | y o IH]; [reflexivity | ].
  simpl. destruct (Rlt_dec x y); simpl; [reflexivity | ].
  change (map (fun x0 => PNum (XFin x0)) o) with (muestra_R o).
  rewrite IH. reflexivity.
Qed.

Lemma py_sorted_desde_exacta (xs o : list R) :
  py_sorted_desde (muestra_R o) (muestra_R xs) = Ok (muestra_R (ordenar_desde o xs)).
Proof.
  revert o. induction xs as [ | x xs IH]; intros o; [reflexivity | ].
  simpl. rewrite insertar_exacta. unfold bind. rewrite IH. reflexivity.
Qed.

Lemma insertar_R_permutacion (x : R) (l : list R) : Permutation (insertar_R x l) (x :: l).
Proof.
  induction l as [ | y l IH]; [reflexivity | ].
  simpl. destruct (Rlt_dec x y); [reflexivity | ].
  rewrite IH. apply perm_swap.
Qed.

Lemma insertar_R_ordenada (x : R) (l : list R) :
  Sorted Rle l -> Sorted Rle (insertar_R x l).
Proof.
  induction l as [ | y l IH]; intros Hs; [repeat constructor | ].
  simpl. destruct (Rlt_dec x y) as [Hxy | Hxy].
  - constructor; [exact Hs | constructor; lra].
  - inversion Hs as [ | ? ? Hl Hy]; subst. constructor; [apply IH, Hl | ].
    destruct l as [ | z l]; simpl; [constructor; lra | ].
    destruct (Rlt_dec x z); constructor; [lra | inversion Hy; assumption].
Qed.

Lemma ordenar_desde_correcta (xs o : list R) :
  Sorted Rle o ->
  Sorted Rle (ordenar_desde o xs) /\ Permutation (ordenar_desde o xs) (o ++ xs).
Proof.
  revert o. induction xs as [ | x xs IH]; intros o Ho.
  - simpl. rewrite app_nil_r. auto.
  - destruct (IH (insertar_R x o) (insertar_R_ordenada x o Ho)) as [Hs Hp].
    split; [exact Hs | ]. unfold ordenar_desde in *. simpl. rewrite Hp.
    rewrite insertar_R_permutacion. apply Permutation_middle.
Qed.

Lemma ordenar_correcta (xs : list R) :
  Sorted Rle (ordenar xs) /\ Permutation (ordenar xs) xs.
Proof. apply (ordenar_desde_correcta xs []). constructor. Qed.

Lemma ordenar_length (xs : list R) : length (ordenar xs) = length xs.
Proof. apply Permutation_length, ordenar_correcta. Qed.

Lemma ordenar_permutacion (xs ys : list R) :
  Permutation xs ys -> ordenar xs = ordenar ys.
Proof.
  intros Hp.
  apply (@Sorted_unique R Rle Rle_trans Rle_antisym);
    try apply ordenar_correcta.
  rewrite (proj2 (ordenar_correcta xs)), (proj2 (ordenar_correcta ys)). exact Hp.
Qed.

Lemma nth_muestra_R (xs : list R) (i : nat) :
  (i < length xs)%nat -> nth i (muestra_R xs) PNone = PNum (XFin (nth i xs 0%R)).
Proof.
  intros Hi. unfold muestra_R.
  rewrite (nth_indep _ PNone (PNum (XFin 0))) by (rewrite length_map; exact Hi).
  apply (map_nth (fun x => PNum (XFin x))).
Qed.

Lemma mediana_exacta (xs : list R) :
  xs <> [] -> mediana (motor_R xs) = Ok (PNum (XFin (mediana_R xs))).
Proof.
  intros Hne. unfold mediana, contar_datos, motor_R, py_sorted. simpl datos.
  rewrite muestra_R_length.
  destruct (length xs =? 0)%nat eqn:E.
  { apply Nat.eqb_eq in E. destruct xs; [contradiction | discriminate]. }
  apply Nat.eqb_neq in E.
  change (@nil (pyval xreal)) with (muestra_R []).
  rewrite py_sorted_desde_exacta. fold (ordenar xs). unfold bind, mediana_R.
  assert (Hd : (length xs / 2 < length xs)%nat) by (apply Nat.div_lt; lia).
  rewrite !nth_muestra_R by (rewrite ordenar_length; lia).
  destruct (length xs mod 2 =? 0)%nat; [ | reflexivity].
  cbn [py_mas py_entre_2 f_add f_div f_of_Z exacta x_add].
  rewrite x_div_fin by lra. reflexivity.
Qed.









(** X10.  In exact arithmetic, [mediana] does not depend on the order of
    the observations: two lists of finite numbers that are permutations of
    each other have the same median. *)
Theorem X10_mediana_sin_orden (xs ys : list R) :
  Permutation xs ys ->
  xs <> [] ->
  mediana (motor_R xs) = mediana (motor_R ys).
Proof.
  intros Hp Hne.
  assert (Hne' : ys <> []).
  { intros ->. apply Permutation_sym, Permutation_nil in Hp. contradiction. }
  rewrite (mediana_exacta xs Hne), (mediana_exacta ys Hne').
  unfold mediana_R.
  rewrite (ordenar_permutacion xs ys Hp), (Permutation_length Hp). reflexivity.
Qed.

Lemma X10_testigo :
  mediana (motor_R [3; 1; 2]%R) = mediana (motor_R [1; 2; 3]%R).
Proof.
  apply X10_mediana_sin_orden; [ | discriminate].
  apply (perm_trans (l' := [1; 3; 2]%R)).
  - apply perm_swap.
  - apply perm_skip, perm_swap.
Defined.

(** ** The interval of the mean *)

Section ResultadoDelIntervalo.

Context {F : Type} {A : Aritmetica F} {L : Externo F}.




End ResultadoDelIntervalo.





(** ** The interval of a proportion *)





(** ** The text of [__str__] *)

(** X14.  [__str__] never fails, for every engine: the keys it reads are the
    keys [resumen] has written, so no KeyError arises, and the values have
    the types it formats.  The text is the header with the count, a rule,
    the body, a rule and the line on proportions; the body is the mean and
    the interval when both are computed, the text on non-numeric data when a
    TypeError arose, and the message of the error otherwise. *)
Theorem X14_texto_sin_fallos (F : Type) (A : Aritmetica F) (L : Externo F)
    (Fmt : Formato F) (self : InferenciaEstadistica F) :
  (exists cuerpo,
      InferenciaEstadistica_str self
      = inl (encabezado (_n self) +:+ cuerpo +:+ cierre))
  /\ (forall ic m,
        intervalo_confianza_media self nivel_095 = Ok ic ->
        media (base self) = Ok m ->
        InferenciaEstadistica_str self
        = inl (encabezado (_n self)
               +:+ ("Media Muestral: " +:+ formato_4f m +:+ salto
                    +:+ "IC de la Media (95%): (" +:+ formato_4f (fst ic)
                    +:+ ", " +:+ formato_4f (snd ic) +:+ ")" +:+ salto)
               +:+ cierre))
  /\ (forall e,
        intervalo_confianza_media self nivel_095 = Raise e
        \/ (exists ic, intervalo_confianza_media self nivel_095 = Ok ic
                       /\ media (base self) = Raise e) ->
        InferenciaEstadistica_str self
        = inl (encabezado (_n self)
               +:+ ((if es_TypeError e then no_aplicable
                     else "Error al calcular: " +:+ mensaje e) +:+ salto)
               +:+ cierre)).
Proof.
  assert (Hok : forall ic m,
             intervalo_confianza_media self nivel_095 = Ok ic ->
             media (base self) = Ok m ->
             InferenciaEstadistica_str self
             = inl (encabezado (_n self)
                    +:+ ("Media Muestral: " +:+ formato_4f m +:+ salto
                         +:+ "IC de la Media (95%): (" +:+ formato_4f (fst ic)
                         +:+ ", " +:+ formato_4f (snd ic) +:+ ")" +:+ salto)
                    +:+ cierre)).
  { intros ic m Hic Hm. unfold InferenciaEstadistica_str.
    rewrite (resumen_Ok self ic m Hic Hm).
    rewrite lookup_insert_ne by discriminate.
    rewrite lookup_insert_eq, lookup_insert_eq. reflexivity. }
  assert (Herr : forall e,
             intervalo_confianza_media self nivel_095 = Raise e
             \/ (exists ic, intervalo_confianza_media self nivel_095 = Ok ic
                            /\ media (base self) = Raise e) ->
             InferenciaEstadistica_str self
             = inl (encabezado (_n self)
                    +:+ ((if es_TypeError e then no_aplicable
                          else "Error al calcular: " +:+ mensaje e) +:+ salto)
                    +:+ cierre)).
  { intros e He. unfold InferenciaEstadistica_str, resumen, try_except, bind.
    destruct He as [-> | (ic & -> & ->)];
      destruct (es_TypeError e);
      rewrite lookup_insert_ne by discriminate;
      rewrite lookup_singleton_ne by discriminate;
      rewrite lookup_insert_eq; reflexivity. }
  split; [ | split; [exact Hok | exact Herr]].
  destruct (intervalo_confianza_media self nivel_095) as [ic | e] eqn:Hic.
  - destruct (media (base self)) as [m | e] eqn:Hm.
    + eexists. apply (Hok ic m); reflexivity.
    + eexists. apply (Herr e). right. exists ic. split; reflexivity.
  - eexists. apply (Herr e). left. reflexivity.
Qed.

(** ** What [moda] returns *)

Section ModaEnLaMuestra.

Context {F : Type} {A : Aritmetica F}.

Lemma claves_dict_set (d : list (pyval F * nat)) (k : pyval F) (c : nat) (v : pyval F) :
  In v (claves (dict_set d k c)) -> In v (claves d) \/ v = k.
Proof.
  unfold claves. induction d as [ | [k' c'] d IH]; simpl.
  - intros [H | []]. right. symmetry. exact H.
  - destruct (clave_eqb k' k); simpl.
    + intros H. left. exact H.
    + intros [H | H]; [left; left; exact H | ].
      destruct (IH H) as [H' | H']; [left; right; exact H' | right; exact H'].
Qed.

Lemma claves_fold (l : list (pyval F)) (d : list (pyval F * nat)) (v : pyval F) :
  In v (claves (fold_left contar_valor l d)) -> In v (claves d) \/ In v l.
Proof.
  revert d. induction l as [ | x l IH]; simpl; intros d H; [left; exact H | ].
  destruct (IH _ H) as [H' | H']; [ | right; right; exact H'].
  destruct (claves_dict_set _ _ _ _ H') as [H'' | H''];
    [left; exact H'' | right; left; symmetry; exact H''].
Qed.

Lemma claves_frecuencias_de (l : list (pyval F)) (v : pyval F) :
  In v (claves (frecuencias_de l)) -> In v l.
Proof.
  intros H. destruct (claves_fold l [] v H) as [[] | H']. exact H'.
Qed.

End ModaEnLaMuestra.

(** X15.  For every engine, whatever the equality of its numbers: every
    value [moda] returns, alone or in a list, is an element of the data; a
    list it returns never has exactly one element, since a single mode is
    returned as a scalar; a sample of one element has that element as its
    mode, although no value repeats; and without data the result is the
    empty list. *)
Theorem X15_moda_en_la_muestra (F : Type) (A : Aritmetica F) (self : EstadisticaBase F) :
  (forall v, In v (valores_de (moda self)) -> In v (datos self))
  /\ (forall l, moda self = Varias l -> length l <> 1%nat)
  /\ (forall x, datos self = [x] -> moda self = Unica x)
  /\ (datos self = [] -> moda self = Varias []).
Proof.
  split; [ | split; [ | split]].
  - intros v. unfold moda.
    destruct (contar_datos self =? 0)%nat; [intros [] | ].
    destruct ((list_max (map snd (frecuencias_de (datos self))) =? 1)%nat
              && (1 <? contar_datos self)%nat); [intros [] | ].
    set (modas := map fst (List.filter _ (frecuencias_de (datos self)))).
    assert (Hm : forall w, In w modas -> In w (datos self)).
    { intros w Hw. apply claves_frecuencias_de. unfold claves, modas in *.
      apply in_map_iff in Hw as ([k c] & <- & Hin).
      apply filter_In in Hin as [Hin _].
      apply in_map_iff. exists (k, c). split; [reflexivity | exact Hin]. }
    destruct modas as [ | m [ | m' modas']] eqn:E; simpl; intros Hv.
    + destruct Hv.
    + apply Hm. exact Hv.
    + apply Hm. exact Hv.
  - intros l. unfold moda.
    destruct (contar_datos self =? 0)%nat; [intros [= <-]; discriminate | ].
    destruct ((list_max (map snd (frecuencias_de (datos self))) =? 1)%nat
              && (1 <? contar_datos self)%nat); [intros [= <-]; discriminate | ].
    destruct (map fst (List.filter _ (frecuencias_de (datos self))))
      as [ | m [ | m' modas']]; intros H; inversion H; subst; discriminate.
  - intros x Hx. unfold moda, contar_datos. rewrite Hx. reflexivity.
  - intros Hx. unfold moda, contar_datos. rewrite Hx. reflexivity.
Qed.

(** ** The summary of the base class and its override *)

(** X16.  [EstadisticaBase.resumen] raises NotImplementedError on every
    engine and never returns; on an [InferenciaEstadistica] the name
    [resumen] resolves to the subclass's own method, which returns on every
    engine; and every other method of the base class that the subclass does
    not define resolves, on an [InferenciaEstadistica], to the base class's
    method. *)
Theorem X16_resumen_sobrescrito (F : Type) (A : Aritmetica F) (L : Externo F)
    (b : EstadisticaBase F) (self : InferenciaEstadistica F) :
  (exists msg, resumen_base b = raise NotImplementedError msg)
  /\ (forall r, resumen_base b <> Ok r)
  /\ getattr CEstadisticaBase "resumen" = Ok (Metodo CEstadisticaBase)
  /\ getattr CInferenciaEstadistica "resumen" = Ok (Metodo CInferenciaEstadistica)
  /\ (exists r, resumen self = Ok r)
  /\ (forall nombre,
        contiene (cuerpo_clase CEstadisticaBase) nombre = true ->
        contiene (cuerpo_clase CInferenciaEstadistica) nombre = false ->
        getattr CInferenciaEstadistica nombre = Ok (Metodo CEstadisticaBase)).
Proof.
  split; [eexists; reflexivity | ].
  split; [intros r; discriminate | ].
  split; [reflexivity | ].
  split; [reflexivity | ].
  split.
  { destruct (resumen_total self) as (r & Hr & _). exists r. exact Hr. }
  intros nombre Hb Hs. unfold contiene in Hb.
  apply existsb_exists in Hb as (k & Hin & Hk).
  apply String.eqb_eq in Hk. subst k.
  simpl in Hin.
  repeat (destruct Hin as [<- | Hin]; [first [reflexivity | discriminate Hs] | ]).
  destruct Hin.
Qed.
